(** * The Django example application of goupdate: URLconf and views

    Source files embedded here:
    - [examples/django-app/myapp/views.py]: the views [ping] and [health];
    - [examples/django-app/myapp/urls.py]: the route table [urlpatterns];
    - [examples/django-app/myapp/settings.py]: [ROOT_URLCONF] names the table
      the dispatcher reads.

    The application is written against Django.  The three framework pieces
    the two source files call are modelled after Django's own code:
    [JsonResponse] (django/http/response.py), [path] and the resolution of a
    literal route (django/urls/conf.py, django/urls/resolvers.py), and the
    dispatch of a request to the resolved view
    (django/core/handlers/base.py).  The middleware chain, host validation
    and the WSGI layer are outside this development, as they are outside the
    specification. *)

From Stdlib Require Import List String Ascii ZArith NArith Bool.
Import ListNotations.
Open Scope string_scope.

(** ** Python values and [json.dumps] *)

Module Py.

(** A Python [str] is a sequence of code points; the ones below 256 are
    enough for the literals of views.py. *)
Definition str := string.

#[local] Set Warnings "-register-all".

(** The values a view hands to [JsonResponse]: strings and dicts with string
    keys.  A dict keeps its insertion order, which [json.dumps] follows. *)
Inductive value : Type :=
| Str (s : str)
| Dict (items : list (str * value)).

Definition isinstance_dict (v : value) : bool :=
  match v with
  | Dict _ => true
  | Str _ => false
  end.

(** The double quote, code point 34. *)
Definition dquote : ascii := "034"%char.

Definition hexdigit (n : N) : ascii :=
  match String.get (N.to_nat n) "0123456789abcdef" with
  | Some c => c
  | None => "0"%char
  end.

(** ['\\u{0:04x}'.format(n)] for a code point below 256. *)
Definition u_escape (n : N) : string :=
  "\u00" ++ String (hexdigit (n / 16)) (String (hexdigit (n mod 16)) EmptyString).

(** [json.encoder.py_encode_basestring_ascii]: the replacement of one
    character.  [ESCAPE_ASCII] selects the backslash, the double quote and
    everything outside [' '..'~']; [ESCAPE_DCT] names seven of them and the
    others become [\uXXXX]. *)
Definition escape_char (c : ascii) : string :=
  let n := N_of_ascii c in
  if (n =? 92)%N then "\\"
  else if (n =? 34)%N then String "\"%char (String dquote EmptyString)
  else if (n =? 8)%N then "\b"
  else if (n =? 12)%N then "\f"
  else if (n =? 10)%N then "\n"
  else if (n =? 13)%N then "\r"
  else if (n =? 9)%N then "\t"
  else if ((32 <=? n) && (n <=? 126))%N then String c EmptyString
  else u_escape n.

Fixpoint escape (s : str) : string :=
  match s with
  | EmptyString => EmptyString
  | String c rest => escape_char c ++ escape rest
  end.

(** ['"' + ESCAPE_ASCII.sub(replace, s) + '"'] *)
Definition encode_basestring_ascii (s : str) : string :=
  String dquote (escape s ++ String dquote EmptyString).

(** [sep.join(parts)] *)
Fixpoint join (sep : string) (parts : list string) : string :=
  match parts with
  | [] => EmptyString
  | [p] => p
  | p :: rest => p ++ sep ++ join sep rest
  end.

(** [json.dumps(v)] with the default separators [', '] and [': ']. *)
Fixpoint dumps (v : value) : string :=
  match v with
  | Str s => encode_basestring_ascii s
  | Dict items =>
      "{" ++ join ", "
               (map (fun kv => encode_basestring_ascii (fst kv) ++ ": " ++ dumps (snd kv))
                    items)
          ++ "}"
  end.

End Py.

(** ** Requests, responses and the process state *)

(** What a view can read of [django.http.HttpRequest]. *)
Record HttpRequest : Type := {
  method : string;
  path_info : string;
  headers : list (string * string);
  body : string
}.

(** [django.http.HttpResponse]: status, header dict, content. *)
Record HttpResponse : Type := {
  status_code : Z;
  response_headers : list (string * string);
  content : string
}.

Fixpoint header (key : string) (hs : list (string * string)) : option string :=
  match hs with
  | [] => None
  | (k, v) :: rest => if String.eqb k key then Some v else header key rest
  end.

(** The exceptions of the modelled code. [ImproperlyConfigured] is Django's
    configuration error. *)
Inductive exn : Type :=
| TypeError
| Resolver404
| ImproperlyConfigured.

(** [urls.py] refers to the views as [views.ping] and [views.health]; the
    table stores these references. *)
Inductive view : Type :=
| views_ping
| views_health.

(** [django.urls.resolvers.URLPattern] over a literal [RoutePattern]. *)
Record URLPattern : Type := {
  route : string;
  callback : view;
  name : option string
}.

(** [django.urls.path(route, view, name=...)] with a callable view: builds
    the entry, consults nothing else. *)
Definition path (route : string) (v : view) (name : option string) : URLPattern :=
  {| route := route; callback := v; name := name |}.

(** myapp/urls.py *)
Definition urlpatterns : list URLPattern :=
  [ path "ping/" views_ping (Some "ping");
    path "health/" views_health (Some "health") ].

Section Application.

(** Everything else a Python process holds and a view could reach (module
    globals, caches, the database, the clock, ...). *)
Context {World : Type}.

(** The process: the list object bound to [myapp.urls.urlpatterns], which
    Python lets any code mutate, and the rest of the world. *)
Record Process : Type := {
  urlconf : list URLPattern;
  env : World
}.

(** Code that may read and write the process and may raise. *)
Definition M (A : Type) : Type := Process -> (exn + A) * Process.

Definition ret {A : Type} (a : A) : M A := fun s => (inr a, s).

Definition raise {A : Type} (e : exn) : M A := fun s => (inl e, s).

Definition bind {A B : Type} (m : M A) (k : A -> M B) : M B :=
  fun s =>
    match m s with
    | (inr a, s') => k a s'
    | (inl e, s') => (inl e, s')
    end.

Notation "x <- m ;; k" := (bind m (fun x => k))
  (at level 61, m at next level, right associativity).

(** [django.http.JsonResponse(data)] with the defaults [safe=True],
    [status=200] and [content_type='application/json']. *)
Definition JsonResponse (data : Py.value) : M HttpResponse :=
  if Py.isinstance_dict data
  then ret {| status_code := 200;
              response_headers := [("Content-Type", "application/json")];
              content := Py.dumps data |}
  else raise TypeError.

(** myapp/views.py *)
Definition ping (request : HttpRequest) : M HttpResponse :=
  JsonResponse (Py.Dict [("message", Py.Str "pong")]).

Definition health (request : HttpRequest) : M HttpResponse :=
  JsonResponse (Py.Dict [("status", Py.Str "ok")]).

Definition call (v : view) : HttpRequest -> M HttpResponse :=
  match v with
  | views_ping => ping
  | views_health => health
  end.

(** *** URL resolution (django/urls/resolvers.py) *)

(** [RoutePattern.match] for an endpoint without converters:
    [self._route == path]. *)
Definition route_match (p : URLPattern) (sub : string) : bool :=
  String.eqb (route p) sub.

(** The loop of [URLResolver.resolve] over [url_patterns]: the first entry
    that matches is returned. *)
Fixpoint resolve_patterns (patterns : list URLPattern) (sub : string)
  : option URLPattern :=
  match patterns with
  | [] => None
  | p :: rest => if route_match p sub then Some p else resolve_patterns rest sub
  end.

(** The root resolver has the pattern [^/]: it strips the leading slash and
    hands the rest to the entries. *)
Definition resolve (patterns : list URLPattern) (path : string)
  : option URLPattern :=
  match path with
  | String "/"%char sub => resolve_patterns patterns sub
  | _ => None
  end.

(** The table in force is the list object of the URLconf module. *)
Definition url_patterns : M (list URLPattern) :=
  fun s => (inr (urlconf s), s).

(** [BaseHandler.resolve_request]: only [request.path_info] is looked at. *)
Definition resolve_request (request : HttpRequest) : M URLPattern :=
  patterns <- url_patterns ;;
  match resolve patterns (path_info request) with
  | Some p => ret p
  | None => raise Resolver404
  end.

(** [BaseHandler._get_response]: resolve, then call the view with the
    request. *)
Definition _get_response (request : HttpRequest) : M HttpResponse :=
  p <- resolve_request request ;;
  call (callback p) request.

(** What the client gets: the view's response, or the page Django makes for
    an exception (its body is Django's own and is not modelled). *)
Inductive Outcome : Type :=
| Served (r : HttpResponse)
| NotFound
| ServerError.

(** [response_for_exception]: [Resolver404] is an [Http404]; anything else
    that escapes a view is a server error. *)
Definition response_for_exception (e : exn) : Outcome :=
  match e with
  | Resolver404 => NotFound
  | TypeError | ImproperlyConfigured => ServerError
  end.

(** [BaseHandler.get_response] with the middleware chain left out:
    [convert_exception_to_response] around [_get_response]. *)
Definition get_response (request : HttpRequest) (s : Process)
  : Outcome * Process :=
  match _get_response request s with
  | (inr r, s') => (Served r, s')
  | (inl e, s') => (response_for_exception e, s')
  end.

Definition status_of (o : Outcome) : Z :=
  match o with
  | Served r => status_code r
  | NotFound => 404
  | ServerError => 500
  end.

(** The server loop: requests are answered one after the other by the same
    process. *)
Fixpoint serve (requests : list HttpRequest) (s : Process)
  : list Outcome * Process :=
  match requests with
  | [] => ([], s)
  | r :: rest =>
      let (o, s1) := get_response r s in
      let (os, s2) := serve rest s1 in
      (o :: os, s2)
  end.

(** One view called on each request of a list, in order; the process after
    the last call. *)
Fixpoint call_each (v : view) (requests : list HttpRequest) (s : Process)
  : Process :=
  match requests with
  | [] => s
  | r :: rest => call_each v rest (snd (call v r s))
  end.

(** Startup: [ROOT_URLCONF = 'myapp.urls'] makes [urlpatterns] the table. *)
Definition boot (w : World) : Process :=
  {| urlconf := urlpatterns; env := w |}.

(** A process that serves the table of urls.py. *)
Definition running (s : Process) : Prop := urlconf s = urlpatterns.

End Application.

Arguments Process World : clear implicits.

(** *** Registration

    urls.py registers a route by writing a [path(...)] item in the list
    display bound to [urlpatterns].  Python evaluates the items from left to
    right and appends each one to the list under construction.  Neither
    [path] nor the list looks at the items already there, and Django takes
    the list as it is, so the step has no failing branch; the sum type only
    gives the statements below a place for an error. *)
Definition register (table : list URLPattern)
  (route : string) (v : view) (name : option string)
  : exn + list URLPattern :=
  inr (table ++ [path route v name])%list.

(** ** The specification's router, in its own words *)

Module Spec.

(** Section 6: the registered (method, path) pairs. *)
Definition registered : list (string * string) :=
  [ ("GET", "/ping/"); ("GET", "/health/") ].

(** Section 4.1: [resolve(method, path)] fails exactly when no registered
    route matches both fields. *)
Definition resolve_fails (method path : string) : Prop :=
  ~ In (method, path) registered.

Definition quoted (s : string) : string :=
  String Py.dquote (s ++ String Py.dquote EmptyString).

(** The body [{"message": "pong"}]. *)
Definition pong_body : string :=
  "{" ++ quoted "message" ++ ": " ++ quoted "pong" ++ "}".

(** The body [{"status": "ok"}]. *)
Definition ok_body : string :=
  "{" ++ quoted "status" ++ ": " ++ quoted "ok" ++ "}".

End Spec.

(** The responses section 6 lists for the two views. *)
Definition pong_response : HttpResponse :=
  {| status_code := 200;
     response_headers := [("Content-Type", "application/json")];
     content := Spec.pong_body |}.

Definition ok_response : HttpResponse :=
  {| status_code := 200;
     response_headers := [("Content-Type", "application/json")];
     content := Spec.ok_body |}.

Definition response_of (v : view) : HttpResponse :=
  match v with
  | views_ping => pong_response
  | views_health => ok_response
  end.

(** A request sent again with another method. *)
Definition with_method (m : string) (request : HttpRequest) : HttpRequest :=
  {| method := m;
     path_info := path_info request;
     headers := headers request;
     body := body request |}.

(** A bare request, for examples. *)
Definition bare (m path : string) : HttpRequest :=
  {| method := m; path_info := path; headers := []; body := EmptyString |}.

(** ** myapp/settings.py: the paths *)

Module settings.

(** A resolved [pathlib.Path]: absolute and without [.] or [..].  The list
    holds the components below the root; the root is the empty list. *)
Definition Path : Type := list string.

(** [PurePath.parent]: the path without its last component; the root is its
    own parent. *)
Definition parent (p : Path) : Path := removelast p.

(** [PurePath.name]: the last component, the empty string for the root. *)
Definition name (p : Path) : string := last p EmptyString.

(** [p / child] for a [child] that is one component, a file name such as
    ['db.sqlite3']. *)
Definition truediv (p : Path) (child : string) : Path := (p ++ [child])%list.

(** [BASE_DIR = Path(__file__).resolve().parent.parent], as a function of
    the resolved path of settings.py, which depends on where the project is
    installed. *)
Definition BASE_DIR (file : Path) : Path := parent (parent file).

(** [DATABASES['default']['NAME'] = BASE_DIR / 'db.sqlite3'] *)
Definition DATABASES_default_NAME (file : Path) : Path :=
  truediv (BASE_DIR file) "db.sqlite3".

End settings.

(** ** Reading JSON string literals back

    Used to reason about [Py.escape]; the application does not decode. *)








(** ** Properties *)

Open Scope Z_scope.

Section Properties.

Context {World : Type}.

Implicit Types (s : Process World) (request : HttpRequest) (v : view).

(** *** The model at work *)

Example dumps_pong :
  Py.dumps (Py.Dict [("message", Py.Str "pong")]) = Spec.pong_body.
Proof. reflexivity. Qed.

Example pong_body_codes :
  map N_of_ascii (list_ascii_of_string Spec.pong_body) =
  [123; 34; 109; 101; 115; 115; 97; 103; 101; 34; 58; 32;
   34; 112; 111; 110; 103; 34; 125]%N.
Proof. reflexivity. Qed.

Example ok_body_codes :
  map N_of_ascii (list_ascii_of_string Spec.ok_body) =
  [123; 34; 115; 116; 97; 116; 117; 115; 34; 58; 32; 34; 111; 107; 34; 125]%N.
Proof. reflexivity. Qed.

Example dumps_nested :
  Py.dumps (Py.Dict [("a", Py.Str "x\y"); ("b", Py.Dict [])]) =
  "{" ++ Spec.quoted "a" ++ ": " ++ Spec.quoted "x\\y" ++ ", "
      ++ Spec.quoted "b" ++ ": {}}".
Proof. reflexivity. Qed.

Example escape_control :
  Py.escape (String "010"%char (String "127"%char (String "001"%char "~ ")))
  = "\n\u007f\u0001~ ".
Proof. reflexivity. Qed.

Example json_response_not_dict (s : Process World) :
  JsonResponse (Py.Str "pong") s = (inl TypeError, s).
Proof. reflexivity. Qed.

(** The table of urls.py is what its two registrations build, in order. *)
Lemma urlpatterns_registered :
  match register [] "ping/" views_ping (Some "ping") with
  | inr table => register table "health/" views_health (Some "health")
  | inl e => inl e
  end = inr urlpatterns.
Proof. reflexivity. Qed.

Example get_unknown_404 (w : World) :
  get_response (bare "GET" "/unknown/") (boot w) = (NotFound, boot w).
Proof. reflexivity. Qed.

Example post_ping_200 (w : World) :
  get_response (bare "POST" "/ping/") (boot w) = (Served pong_response, boot w).
Proof. reflexivity. Qed.

(** *** The views *)

Lemma ping_returns request s : ping request s = (inr pong_response, s).
Proof. reflexivity. Qed.

Lemma health_returns request s : health request s = (inr ok_response, s).
Proof. reflexivity. Qed.

Lemma call_returns v request s : call v request s = (inr (response_of v), s).
Proof. destruct v; reflexivity. Qed.

Lemma call_each_state v requests s : call_each v requests s = s.
Proof.
  revert s; induction requests as [|r rest IH]; intro s; simpl.
  - reflexivity.
  - rewrite call_returns; simpl. apply IH.
Qed.

(** *** Resolution *)

Lemma route_match_eq (p : URLPattern) (sub : string) :
  route_match p sub = true <-> route p = sub.
Proof. unfold route_match. apply String.eqb_eq. Qed.

Lemma resolve_patterns_some (patterns : list URLPattern) (sub : string) (e : URLPattern) :
  resolve_patterns patterns sub = Some e -> In e patterns /\ route e = sub.
Proof.
  induction patterns as [|p rest IH]; simpl.
  - discriminate.
  - destruct (route_match p sub) eqn:Hm.
    + intros [= <-]. split; [now left | now apply route_match_eq].
    + intros H. destruct (IH H) as [Hin Hr]. split; [now right | exact Hr].
Qed.

Lemma resolve_patterns_none (patterns : list URLPattern) (sub : string) :
  resolve_patterns patterns sub = None <->
  (forall e, In e patterns -> route e <> sub).
Proof.
  induction patterns as [|p rest IH]; simpl.
  - split; [intros _ e [] | reflexivity].
  - destruct (route_match p sub) eqn:Hm.
    + split; [discriminate|].
      intros H. exfalso. apply (H p); [now left | now apply route_match_eq].
    + rewrite IH. split.
      * intros H e [<- | Hin]; [|now apply H].
        intros Heq. apply route_match_eq in Heq. congruence.
      * intros H e Hin. apply H. now right.
Qed.

(** The first entry with the route wins: entries after it do not count. *)
Lemma resolve_patterns_app (l1 l2 : list URLPattern) (sub : string) :
  resolve_patterns (l1 ++ l2) sub =
  match resolve_patterns l1 sub with
  | Some e => Some e
  | None => resolve_patterns l2 sub
  end.
Proof.
  induction l1 as [|p rest IH]; simpl.
  - reflexivity.
  - destruct (route_match p sub); [reflexivity | exact IH].
Qed.

Lemma resolve_ping : resolve urlpatterns "/ping/" = Some (path "ping/" views_ping (Some "ping")).
Proof. reflexivity. Qed.

Lemma resolve_health :
  resolve urlpatterns "/health/" = Some (path "health/" views_health (Some "health")).
Proof. reflexivity. Qed.

Lemma resolve_urlpatterns_none (p : string) :
  resolve urlpatterns p = None <-> p <> "/ping/" /\ p <> "/health/".
Proof.
  destruct p as [|c sub]; [simpl; split; [split; discriminate | reflexivity]|].
  unfold resolve.
  destruct (Ascii.eqb_spec c "/"%char) as [-> | Hc].
  - rewrite resolve_patterns_none. unfold urlpatterns. split.
    + intros H. split; intros [= ->].
      * apply (H (path "ping/" views_ping (Some "ping"))); simpl; auto.
      * apply (H (path "health/" views_health (Some "health"))); simpl; auto.
    + intros [H1 H2] e [<- | [<- | []]]; simpl; congruence.
  - assert (Hnone : match c with
                    | "/"%char => resolve_patterns urlpatterns sub
                    | _ => None
                    end = None).
    { destruct c as [[] [] [] [] [] [] [] []]; try reflexivity. now elim Hc. }
    rewrite Hnone. split; [|reflexivity].
    intros _. split; intros [= -> _]; now apply Hc.
Qed.

(** *** Dispatch *)

Lemma get_response_resolved request s (e : URLPattern) :
  resolve (urlconf s) (path_info request) = Some e ->
  get_response request s = (Served (response_of (callback e)), s).
Proof.
  intros H. unfold get_response, _get_response, resolve_request, url_patterns, bind.
  rewrite H. unfold ret. now rewrite call_returns.
Qed.

Lemma get_response_unresolved request s :
  resolve (urlconf s) (path_info request) = None ->
  get_response request s = (NotFound, s).
Proof.
  intros H. unfold get_response, _get_response, resolve_request, url_patterns, bind.
  now rewrite H.
Qed.

Lemma get_response_state request s : snd (get_response request s) = s.
Proof.
  destruct (resolve (urlconf s) (path_info request)) as [e|] eqn:H.
  - now rewrite (get_response_resolved _ _ _ H).
  - now rewrite (get_response_unresolved _ _ H).
Qed.

Lemma serve_state (requests : list HttpRequest) s : snd (serve requests s) = s.
Proof.
  revert s; induction requests as [|r rest IH]; intro s; simpl.
  - reflexivity.
  - pose proof (get_response_state r s) as H1.
    destruct (get_response r s) as [o s1]; simpl in H1; subst s1.
    pose proof (IH s) as H2.
    destruct (serve rest s) as [os s2]; simpl in H2 |- *. exact H2.
Qed.

Lemma boot_running (w : World) : running (boot w).
Proof. reflexivity. Qed.

Lemma serve_running (requests : list HttpRequest) s :
  running s -> running (snd (serve requests s)).
Proof. now rewrite serve_state. Qed.

(** *** The claims *)

(** C1: every request with method GET and path /ping/ is answered with
    status 200 and the body [{"message": "pong"}]. *)
Theorem get_ping_200 request s :
  running s ->
  method request = "GET" ->
  path_info request = "/ping/" ->
  exists r,
    fst (get_response request s) = Served r /\
    status_code r = 200 /\
    content r = Spec.pong_body.
Proof.
  intros Hs _ Hp. exists pong_response.
  rewrite (get_response_resolved request s (path "ping/" views_ping (Some "ping"))).
  - repeat split.
  - rewrite Hs, Hp. exact resolve_ping.
Qed.

(** C2: every request with method GET and path /health/ is answered with
    status 200 and the body [{"status": "ok"}]. *)
Theorem get_health_200 request s :
  running s ->
  method request = "GET" ->
  path_info request = "/health/" ->
  exists r,
    fst (get_response request s) = Served r /\
    status_code r = 200 /\
    content r = Spec.ok_body.
Proof.
  intros Hs _ Hp. exists ok_response.
  rewrite (get_response_resolved request s (path "health/" views_health (Some "health"))).
  - repeat split.
  - rewrite Hs, Hp. exact resolve_health.
Qed.

(** C3 (amended): the response status is 404 exactly for the requests whose
    path is neither /ping/ nor /health/, whatever their method; a route is
    registered by its path alone, for every method. *)
Theorem status_404_iff_path_unlisted request s :
  running s ->
  (status_of (fst (get_response request s)) = 404 <->
   path_info request <> "/ping/" /\ path_info request <> "/health/").
Proof.
  intros Hs. rewrite <- resolve_urlpatterns_none, <- Hs.
  destruct (resolve (urlconf s) (path_info request)) as [e|] eqn:H.
  - rewrite (get_response_resolved _ _ _ H). simpl.
    split; [|discriminate]. destruct (callback e); discriminate.
  - rewrite (get_response_unresolved _ _ H). simpl. now split.
Qed.

(** C4 (amended): resolution is an exact string match on the path alone and
    does not look at the method; it fails with [Resolver404] exactly when no
    entry of the table has the request's path, and a successful resolution
    returns an entry of the table with that very path. *)
Theorem resolve_request_exact_path request s :
  (forall m, fst (resolve_request (with_method m request) s) =
             fst (resolve_request request s)) /\
  (fst (resolve_request request s) = inl Resolver404 <->
   forall e, In e (urlconf s) -> path_info request <> "/" ++ route e) /\
  (forall e, fst (resolve_request request s) = inr e ->
             In e (urlconf s) /\ path_info request = "/" ++ route e).
Proof.
  unfold resolve_request, url_patterns, bind. simpl.
  split; [reflexivity|].
  destruct (path_info request) as [|c sub] eqn:Hp.
  { simpl. split; [split; [discriminate | reflexivity] | discriminate]. }
  unfold resolve.
  destruct (Ascii.eqb_spec c "/"%char) as [-> | Hc].
  - destruct (resolve_patterns (urlconf s) sub) as [e0|] eqn:Hr; simpl.
    + apply resolve_patterns_some in Hr. destruct Hr as [Hin Hroute]. split.
      * split; [discriminate|]. intros H. exfalso. apply (H e0 Hin). now rewrite Hroute.
      * intros e [= <-]. split; [exact Hin | now rewrite Hroute].
    + split; [|discriminate]. split; [|reflexivity].
      intros _ e Hin [= Heq]. rewrite resolve_patterns_none in Hr.
      now apply (Hr e Hin).
  - assert (Hnone : match c with
                    | "/"%char => resolve_patterns (urlconf s) sub
                    | _ => None
                    end = None).
    { destruct c as [[] [] [] [] [] [] [] []]; try reflexivity. now elim Hc. }
    rewrite Hnone. simpl. split; [|discriminate]. split; [|reflexivity].
    intros _ e _ [= -> _]. now apply Hc.
Qed.

(** C5 (amended): listing a route whose path is already in the table raises
    no error and startup goes on; the table gets one more entry, and that
    entry is never selected, since resolution returns the first entry with
    the path: the process answers every request as it did without it. *)
Theorem register_duplicate_accepted
  (table : list URLPattern) (r : string) (v : view) (n : option string) :
  In r (map route table) ->
  exists table',
    register table r v n = inr table' /\
    table' = (table ++ [path r v n])%list /\
    (forall p, resolve table' p = resolve table p) /\
    (forall request (w : World),
        fst (get_response request {| urlconf := table'; env := w |}) =
        fst (get_response request {| urlconf := table; env := w |})).
Proof.
  intros Hin. eexists. split; [reflexivity|]. split; [reflexivity|].
  assert (Hres : forall p, resolve (table ++ [path r v n]) p = resolve table p).
  { intros [|c sub]; [reflexivity|]. unfold resolve.
    assert (H : resolve_patterns (table ++ [path r v n]) sub = resolve_patterns table sub).
    { rewrite resolve_patterns_app.
      destruct (resolve_patterns table sub) eqn:Hr; [reflexivity|].
      simpl. destruct (route_match (path r v n) sub) eqn:Hm; [|reflexivity].
      apply route_match_eq in Hm. simpl in Hm. subst sub.
      rewrite resolve_patterns_none in Hr.
      apply in_map_iff in Hin. destruct Hin as [e [He Hine]].
      now elim (Hr e Hine). }
    now rewrite H. }
  split; [exact Hres|].
  intros request w.
  destruct (resolve table (path_info request)) as [e|] eqn:H.
  - rewrite (get_response_resolved request {| urlconf := table; env := w |} e H).
    rewrite (get_response_resolved request {| urlconf := _; env := w |} e);
      [reflexivity | simpl; now rewrite Hres].
  - rewrite (get_response_unresolved request {| urlconf := table; env := w |} H).
    rewrite (get_response_unresolved request {| urlconf := _; env := w |});
      [reflexivity | simpl; now rewrite Hres].
Qed.

(** C6: [ping] and [health] are total (they return a response and raise
    nothing), pure (they leave the process as it was) and deterministic:
    called on any two requests in any two states they return the same
    response, whatever the bodies, the headers and the rest of the world. *)
Theorem views_pure_total (r1 r2 : HttpRequest) (s1 s2 : Process World) :
  (exists resp, ping r1 s1 = (inr resp, s1) /\ ping r2 s2 = (inr resp, s2)) /\
  (exists resp, health r1 s1 = (inr resp, s1) /\ health r2 s2 = (inr resp, s2)).
Proof.
  split.
  - exists pong_response. now rewrite !ping_returns.
  - exists ok_response. now rewrite !health_returns.
Qed.

(** C7: for each of the two views, after a first call and any number of
    further calls the next call returns what the first call returned, and
    the process is as it was before the first call. *)
Theorem views_repeatable v (r0 : HttpRequest) (prior : list HttpRequest) request s :
  fst (call v request (call_each v (r0 :: prior) s)) = fst (call v r0 s) /\
  call_each v (r0 :: prior) s = s.
Proof.
  rewrite call_each_state. split; [|reflexivity].
  now rewrite !call_returns.
Qed.

(** C8: the routes of the table are pairwise distinct, and nothing that runs
    after startup changes the table: neither serving any sequence of
    requests nor calling a view adds, removes or modifies an entry. *)
Theorem route_table_unique_immutable :
  NoDup (map route urlpatterns) /\
  (forall (w : World) (requests : list HttpRequest),
      urlconf (snd (serve requests (boot w))) = urlpatterns) /\
  (forall (requests : list HttpRequest) s,
      urlconf (snd (serve requests s)) = urlconf s) /\
  (forall v request s, urlconf (snd (call v request s)) = urlconf s).
Proof.
  repeat split.
  - simpl. repeat constructor; simpl; intuition discriminate.
  - intros w requests. now rewrite serve_state.
  - intros requests s. now rewrite serve_state.
  - intros v request s. now rewrite call_returns.
Qed.

(** C9: on GET /ping/ and on GET /health/ the response carries the header
    Content-Type: application/json. *)
Theorem json_content_type request s :
  running s ->
  method request = "GET" ->
  path_info request = "/ping/" \/ path_info request = "/health/" ->
  exists r,
    fst (get_response request s) = Served r /\
    header "Content-Type" (response_headers r) = Some "application/json".
Proof.
  intros Hs _ [Hp | Hp].
  - exists pong_response.
    rewrite (get_response_resolved request s (path "ping/" views_ping (Some "ping"))).
    + now split.
    + rewrite Hs, Hp. exact resolve_ping.
  - exists ok_response.
    rewrite (get_response_resolved request s (path "health/" views_health (Some "health"))).
    + now split.
    + rewrite Hs, Hp. exact resolve_health.
Qed.

(** C10: the table and the views put no restriction on the method: whatever
    its method, a request for /ping/ (for /health/) resolves to the view
    [ping] ([health]), which does not read the request and answers as it
    does for GET, with status 200 and the same JSON body. *)
Theorem any_method_same_response request s :
  running s ->
  path_info request = "/ping/" \/ path_info request = "/health/" ->
  exists e,
    fst (resolve_request request s) = inr e /\
    In e urlpatterns /\
    (path_info request = "/ping/" -> callback e = views_ping) /\
    (path_info request = "/health/" -> callback e = views_health) /\
    get_response request s = (Served (response_of (callback e)), s) /\
    get_response request s = get_response (with_method "GET" request) s /\
    status_of (fst (get_response request s)) = 200.
Proof.
  intros Hs Hp.
  assert (Hres : exists e, resolve urlpatterns (path_info request) = Some e /\
                           In e urlpatterns /\
                           (path_info request = "/ping/" -> callback e = views_ping) /\
                           (path_info request = "/health/" -> callback e = views_health)).
  { destruct Hp as [Hp | Hp]; rewrite Hp; eexists; (split; [reflexivity|]); simpl.
    - split; [now left|]. split; [reflexivity | discriminate].
    - split; [now right; left|]. split; [discriminate | reflexivity]. }
  destruct Hres as [e [He [Hin [H1 H2]]]]. exists e.
  assert (Hr : get_response request s = (Served (response_of (callback e)), s)).
  { apply get_response_resolved. now rewrite Hs. }
  assert (Hg : get_response (with_method "GET" request) s
               = (Served (response_of (callback e)), s)).
  { apply get_response_resolved. simpl. now rewrite Hs. }
  repeat split; try assumption.
  - unfold resolve_request, url_patterns, bind. simpl. now rewrite Hs, He.
  - now rewrite Hr, Hg.
  - rewrite Hr. simpl. destruct (callback e); reflexivity.
Qed.

End Properties.

Lemma get_ping_200_witness :
  exists r,
    fst (get_response (bare "GET" "/ping/") (boot tt)) = Served r /\
    status_code r = 200 /\
    content r = Spec.pong_body.
Proof.
  apply (get_ping_200 (bare "GET" "/ping/") (boot tt)); reflexivity.
Defined.

Lemma get_health_200_witness :
  exists r,
    fst (get_response (bare "GET" "/health/") (boot tt)) = Served r /\
    status_code r = 200 /\
    content r = Spec.ok_body.
Proof.
  apply (get_health_200 (bare "GET" "/health/") (boot tt)); reflexivity.
Defined.

(** C3 as stated fails: POST /ping/ is not one of the registered pairs of
    the specification, and it is answered 200. *)
Lemma post_ping_not_404 :
  ~ (~ In (method (bare "POST" "/ping/"), path_info (bare "POST" "/ping/")) Spec.registered ->
     status_of (fst (get_response (bare "POST" "/ping/") (boot tt))) = 404).
Proof.
  intros H.
  assert (H404 : status_of (fst (get_response (bare "POST" "/ping/") (boot tt))) = 404).
  { apply H. simpl. intros [[=] | [[=] | []]]. }
  vm_compute in H404. discriminate.
Qed.

Lemma status_404_iff_path_unlisted_witness :
  status_of (fst (get_response (bare "GET" "/unknown/") (boot tt))) = 404 /\
  status_of (fst (get_response (bare "POST" "/ping/") (boot tt))) <> 404.
Proof.
  split.
  - apply (status_404_iff_path_unlisted (bare "GET" "/unknown/") (boot tt)).
    + reflexivity.
    + split; discriminate.
  - intros H.
    apply (status_404_iff_path_unlisted (bare "POST" "/ping/") (boot tt)) in H.
    + destruct H as [H _]. now apply H.
    + reflexivity.
Defined.

(** C4 as stated fails: no registered pair of the specification matches
    POST /ping/ on both fields, and the resolution succeeds. *)
Lemma resolve_ignores_method :
  ~ (fst (resolve_request (bare "POST" "/ping/") (boot tt)) = inl Resolver404 <->
     Spec.resolve_fails "POST" "/ping/").
Proof.
  intros [_ H].
  assert (Hf : Spec.resolve_fails "POST" "/ping/").
  { unfold Spec.resolve_fails. simpl. intros [[=] | [[=] | []]]. }
  specialize (H Hf). vm_compute in H. discriminate.
Qed.

(** C5 as stated fails: /ping/ is registered, and listing it again gives a
    table, not a configuration error. *)
Lemma register_duplicate_no_error :
  ~ (In "ping/" (map route urlpatterns) ->
     register urlpatterns "ping/" views_health None = inl ImproperlyConfigured).
Proof.
  intros H.
  assert (Hin : In "ping/" (map route urlpatterns)) by (simpl; now left).
  specialize (H Hin). discriminate.
Qed.

Lemma register_duplicate_accepted_witness :
  exists table',
    register urlpatterns "ping/" views_health None = inr table' /\
    table' = (urlpatterns ++ [path "ping/" views_health None])%list /\
    (forall p, resolve table' p = resolve urlpatterns p) /\
    (forall request (w : unit),
        fst (get_response request {| urlconf := table'; env := w |}) =
        fst (get_response request {| urlconf := urlpatterns; env := w |})).
Proof.
  apply (register_duplicate_accepted urlpatterns "ping/" views_health None).
  simpl. now left.
Defined.

Lemma json_content_type_witness :
  exists r,
    fst (get_response (bare "GET" "/health/") (boot tt)) = Served r /\
    header "Content-Type" (response_headers r) = Some "application/json".
Proof.
  apply (json_content_type (bare "GET" "/health/") (boot tt)).
  - reflexivity.
  - reflexivity.
  - right. reflexivity.
Defined.

Lemma any_method_same_response_witness :
  exists e,
    fst (resolve_request (bare "POST" "/ping/") (boot tt)) = inr e /\
    In e urlpatterns /\
    (path_info (bare "POST" "/ping/") = "/ping/" -> callback e = views_ping) /\
    (path_info (bare "POST" "/ping/") = "/health/" -> callback e = views_health) /\
    get_response (bare "POST" "/ping/") (boot tt)
      = (Served (response_of (callback e)), boot tt) /\
    get_response (bare "POST" "/ping/") (boot tt)
      = get_response (with_method "GET" (bare "POST" "/ping/")) (boot tt) /\
    status_of (fst (get_response (bare "POST" "/ping/") (boot tt))) = 200.
Proof.
  apply (any_method_same_response (bare "POST" "/ping/") (boot tt)).
  - reflexivity.
  - left. reflexivity.
Defined.

(** ** Further properties of the dispatch *)

Section Dispatch.

Context {World : Type}.

Implicit Types (s : Process World) (request : HttpRequest) (v : view).

(** X1: the answers of the server loop are the answers each request gets on
    its own from the process as it was at the start: what was served before
    has no influence, and there is one answer per request, in order. *)
Theorem serve_pointwise (requests : list HttpRequest) s :
  fst (serve requests s) = map (fun r => fst (get_response r s)) requests.
Proof.
  induction requests as [|r rest IH]; simpl.
  - reflexivity.
  - pose proof (get_response_state r s) as H1.
    destruct (get_response r s) as [o s1]; simpl in H1 |- *; subst s1.
    destruct (serve rest s) as [os s2]; simpl in IH |- *.
    now rewrite IH.
Qed.






End Dispatch.





(** ** Further properties of the JSON bodies *)

Section Json.

Context {World : Type}.





















End Json.




(** ** The paths of settings.py *)


(** X11: for every location of settings.py the database file is named
    db.sqlite3 and lies directly in [BASE_DIR], which is an ancestor of
    settings.py at most two levels up; when settings.py is less than two
    levels below the root, [BASE_DIR] is the root itself. *)
Theorem database_in_base_dir (file : settings.Path) :
  settings.parent (settings.DATABASES_default_NAME file) = settings.BASE_DIR file /\
  settings.name (settings.DATABASES_default_NAME file) = "db.sqlite3" /\
  (exists rest, file = (settings.BASE_DIR file ++ rest)%list /\ (List.length rest <= 2)%nat) /\
  ((List.length file <= 2)%nat ->
   settings.BASE_DIR file = [] /\
   settings.DATABASES_default_NAME file = ["db.sqlite3"]).
Proof.
  unfold settings.DATABASES_default_NAME, settings.truediv, settings.parent, settings.name.
  rewrite removelast_last, last_last.
  split; [reflexivity|]. split; [reflexivity|]. split.
  - unfold settings.BASE_DIR, settings.parent.
    destruct file as [|a file] using rev_ind; [exists []; split; [reflexivity | repeat constructor]|].
    rewrite removelast_last.
    destruct file as [|b file _] using rev_ind.
    + exists [a]. split; [reflexivity | repeat constructor].
    + rewrite removelast_last. exists [b; a].
      split; [now rewrite <- app_assoc | repeat constructor].
  - intros Hlen. destruct file as [|a [|b [|c file]]]; simpl in Hlen.
    + now split.
    + now split.
    + now split.
    + exfalso. repeat apply le_S_n in Hlen. inversion Hlen.
Qed.
